(** * ModalMixin (lib/streamlit/elements/modal.py)

  A shallow embedding of the modal-form mixin and of the calls it makes
  to its collaborators: the [form] helper module, the [DeltaGenerator]
  tree-builder, the script-run context and the app-session event
  constructor.

  The collaborators live outside [modal.py].  They are taken as a record
  of state-passing functions with the signatures the call sites show,
  whatever value they return.  [_button] is the one that refuses calls
  ("a modal_form_submit_button cannot exist outside a modal"): it returns
  a boolean or raises, and what it raises passes through the mixin.  Every
  call the mixin makes is recorded, with its arguments and its result, in
  the run's list of calls, so that "calls [_button] once with these
  arguments" is a statement about a value. *)

From stdpp Require Import base strings list gmap.

Local Open Scope string_scope.

(** ** Python values used by the file *)

(** The double quote and the line feed, which occur in the error message. *)
Definition dquote : string := String (Ascii.ascii_of_nat 34) EmptyString.
Definition newline : string := String (Ascii.ascii_of_nat 10) EmptyString.

(** [x in xs] on a list of strings. *)
Definition py_in (x : string) (xs : list string) : bool :=
  bool_decide (x ∈ xs).

(** No character of [s] is the hyphen. *)
Fixpoint hyphen_free (s : string) : bool :=
  match s with
  | EmptyString => true
  | String c s' => negb (Ascii.eqb c (Ascii.ascii_of_nat 45)) && hyphen_free s'
  end.

(** [streamlit.errors]: the one exception class the file raises. *)
Inductive Exception : Type :=
| StreamlitAPIException (msg : string).

(** How a call ends: with a value, or with an exception. *)
Inductive Outcome (A : Type) : Type :=
| Returned (a : A)
| Raised (e : Exception).
Arguments Returned {A} a.
Arguments Raised {A} e.

(** ** [streamlit.proto.Block_pb2] *)

Module Block_pb2.

(** The [Modal] member of the block's [type] oneof: two scalar fields. *)
Record Modal : Type := { form_id : string; clear_on_submit : bool }.

(** A sub-message that was never written reads as all defaults. *)
Definition Modal_default : Modal :=
  {| form_id := EmptyString; clear_on_submit := false |}.

Section Block.
(** [Rest] stands for every member of [Block] other than [modal]; this file
    never reads or writes them.  [inhabitant] is their state in a new
    message. *)
Context {Rest : Type} `{!Inhabited Rest}.

Record Block : Type := { modal : option Modal; rest : Rest }.

(** [Block_pb2.Block()] *)
Definition Block_new : Block := {| modal := None; rest := inhabitant |}.

(** Reading [b.modal]. *)
Definition get_modal (b : Block) : Modal :=
  default Modal_default (modal b).

(** [b.modal.form_id = v]: the sub-message becomes present. *)
Definition set_modal_form_id (v : string) (b : Block) : Block :=
  {| modal := Some {| form_id := v;
                      clear_on_submit := clear_on_submit (get_modal b) |};
     rest := rest b |}.

(** [b.modal.clear_on_submit = v] *)
Definition set_modal_clear_on_submit (v : bool) (b : Block) : Block :=
  {| modal := Some {| form_id := form_id (get_modal b);
                      clear_on_submit := v |};
     rest := rest b |}.

End Block.

Arguments Block : clear implicits.

End Block_pb2.

(** ** [streamlit.elements.form]: the data it exports *)

Module form.

(** [class FormData(NamedTuple)] with its one member [form_id : str]. *)
Record FormData : Type := { form_id : string }.

End form.

(** ** Objects, the world and the calls *)

(** A [DeltaGenerator] is an object; two names may denote the same one. *)
Definition DeltaGenerator : Type := positive.

(** The three collaborators the component forwards to, and the module the
    event constructor is imported from. *)
Inductive Collaborator : Type :=
| form_helper
| delta_generator
| script_run_context
| app_session.

#[global] Instance Collaborator_eq_dec : EqDecision Collaborator.
Proof. solve_decision. Defined.

Section Model.

Context {Rest : Type} `{!Inhabited Rest}.
(** [Ext] is what lies behind the collaborators: the delta queue, the widget
    registry, the form ids of this run, and so on. *)
Context {Ext : Type}.
Context {ScriptRunContext ForwardMsg Callable Args Kwargs : Type}.

Abbreviation Block := (Block_pb2.Block Rest).

(** The keyword arguments of [DeltaGenerator._button]. *)
Record ButtonArgs : Type := {
  label : string;
  key : string;
  help : option string;
  is_form_submitter : bool;
  on_click : option Callable;
  args : option Args;
  kwargs : option Kwargs;
  type : string;
  disabled : bool;
  use_container_width : bool;
  ctx : option ScriptRunContext
}.

(** The [_form_data] attribute of every generator object ([None] where the
    map has no entry), and the rest of the running app. *)
Record World : Type := {
  form_data : gmap DeltaGenerator form.FormData;
  ext : Ext
}.

(** One call out of the file, with its arguments and its result. *)
Inductive Call : Type :=
| call_get_script_run_ctx (ret : option ScriptRunContext)
| call_build_form_id (dg : DeltaGenerator) (key : string) (ret : string)
| call_current_form_id (dg : DeltaGenerator) (ret : string)
| call_block (dg : DeltaGenerator) (block_proto : Block)
    (ret : DeltaGenerator)
| call_button (dg : DeltaGenerator) (a : ButtonArgs) (ret : Outcome bool)
| call_create_update_open_modal_id_modal_event
    (open_modal_id : string) (ret : ForwardMsg)
| call_enqueue (ctx : ScriptRunContext) (msg : ForwardMsg).

Definition collaborator_of (c : Call) : Collaborator :=
  match c with
  | call_get_script_run_ctx _ => script_run_context
  | call_build_form_id _ _ _ => form_helper
  | call_current_form_id _ _ => form_helper
  | call_block _ _ _ => delta_generator
  | call_button _ _ _ => delta_generator
  | call_create_update_open_modal_id_modal_event _ _ => app_session
  | call_enqueue _ _ => script_run_context
  end.

(** The collaborators.  [get_script_run_ctx] and [current_form_id] are
    queries; [create_update_open_modal_id_modal_event] builds a message from
    its argument; the others may change the world.  [_button] ends with
    the boolean it returns or with the exception it raises. *)
Record Collaborators : Type := {
  get_script_run_ctx : World -> option ScriptRunContext;
  build_form_id : DeltaGenerator -> string -> World -> string * World;
  current_form_id : DeltaGenerator -> World -> string;
  _block : DeltaGenerator -> Block -> World -> DeltaGenerator * World;
  _button : DeltaGenerator -> ButtonArgs -> World -> Outcome bool * World;
  create_update_open_modal_id_modal_event : string -> ForwardMsg;
  enqueue : ScriptRunContext -> ForwardMsg -> World -> World
}.

(** ** Computations: world passing, exceptions, and the calls made *)

Record Run (A : Type) : Type := {
  outcome : Outcome A;
  final : World;
  calls : list Call
}.
Arguments outcome {A} r.
Arguments final {A} r.
Arguments calls {A} r.

Definition M (A : Type) : Type := World -> Run A.

(** Sequencing stops at the first exception; the calls made so far stay. *)
#[global] Instance M_ret : MRet M :=
  fun A (a : A) w => {| outcome := Returned a; final := w; calls := [] |}.

#[global] Instance M_bind : MBind M :=
  fun A B (k : A -> M B) (m : M A) w =>
    let r := m w in
    match outcome r with
    | Returned a =>
        let r' := k a (final r) in
        {| outcome := outcome r'; final := final r';
           calls := calls r ++ calls r' |}
    | Raised e =>
        {| outcome := Raised e; final := final r; calls := calls r |}
    end.

Definition raise {A} (e : Exception) : M A :=
  fun w => {| outcome := Raised e; final := w; calls := [] |}.

(** A query: the world is read, not changed. *)
Definition query {A} (f : World -> A) (log : A -> Call) : M A :=
  fun w => {| outcome := Returned (f w); final := w; calls := [log (f w)] |}.

(** A command that returns a value. *)
Definition command {A} (f : World -> A * World) (log : A -> Call) : M A :=
  fun w =>
    {| outcome := Returned (f w).1; final := (f w).2;
       calls := [log (f w).1] |}.

(** A command that returns a value or raises. *)
Definition command_or_raise {A} (f : World -> Outcome A * World)
  (log : Outcome A -> Call) : M A :=
  fun w =>
    {| outcome := (f w).1; final := (f w).2; calls := [log (f w).1] |}.

(** [o._form_data = v] *)
Definition setattr_form_data (o : DeltaGenerator) (v : form.FormData)
  : M unit :=
  fun w =>
    {| outcome := Returned tt;
       final := {| form_data := <[o := v]> (form_data w); ext := ext w |};
       calls := [] |}.

(** ** The calls, as the file writes them *)

Variable env : Collaborators.

(** [get_script_run_ctx()] *)
Definition scriptrunner_get_script_run_ctx : M (option ScriptRunContext) :=
  query (get_script_run_ctx env) call_get_script_run_ctx.

(** [form.build_form_id(dg, key)] *)
Definition form_build_form_id (dg : DeltaGenerator) (key : string)
  : M string :=
  command (build_form_id env dg key) (call_build_form_id dg key).

(** [form.current_form_id(dg)] *)
Definition form_current_form_id (dg : DeltaGenerator) : M string :=
  query (current_form_id env dg) (call_current_form_id dg).

(** [dg._block(block_proto)] *)
Definition dg_block (dg : DeltaGenerator) (block_proto : Block)
  : M DeltaGenerator :=
  command (_block env dg block_proto) (call_block dg block_proto).

(** [dg._button(label=..., key=..., ...)] *)
Definition dg_button (dg : DeltaGenerator) (a : ButtonArgs) : M bool :=
  command_or_raise (_button env dg a) (call_button dg a).

(** [create_update_open_modal_id_modal_event(open_modal_id=...)] *)
Definition app_session_create_update_open_modal_id_modal_event
  (open_modal_id : string) : M ForwardMsg :=
  query (fun _ => create_update_open_modal_id_modal_event env open_modal_id)
    (call_create_update_open_modal_id_modal_event open_modal_id).

(** [ctx.enqueue(msg)] *)
Definition ctx_enqueue (ctx : ScriptRunContext) (msg : ForwardMsg)
  : M unit :=
  command (fun w => (tt, enqueue env ctx msg w))
    (fun _ => call_enqueue ctx msg).

(** Modelled from the spec: [gather_metrics] (streamlit.runtime.metrics_util)
    is the decorator on the two form methods and is not part of this file.
    The spec counts no telemetry among what the component produces ("it only
    constructs one block descriptor and one button descriptor and emits one
    event"), so the decorated function is the function itself, run under the
    given command name. *)
Definition gather_metrics {A} (name : string) (f : M A) : M A := f.

(** ** class ModalMixin *)

(** The [dg] property: [cast(DeltaGenerator, self)]. *)
Definition dg (self : DeltaGenerator) : DeltaGenerator := self.

(** [ModalMixin.build_modal_proto] (a static method) *)
Definition build_modal_proto (form_id : string) (clear_on_submit : bool)
  : Block :=
  let block_proto := Block_pb2.Block_new in
  let block_proto := Block_pb2.set_modal_form_id form_id block_proto in
  let block_proto :=
    Block_pb2.set_modal_clear_on_submit clear_on_submit block_proto in
  block_proto.

(** [ModalMixin.experimental_modal_form] *)
Definition experimental_modal_form (self : DeltaGenerator) (key : string)
  (clear_on_submit : bool) : M DeltaGenerator :=
  gather_metrics "experimental_modal_form" (
    form_id ← form_build_form_id (dg self) key;
    block_dg ← dg_block (dg self)
                 (build_modal_proto form_id clear_on_submit);
    setattr_form_data block_dg {| form.form_id := form_id |};;
    mret block_dg).

(** The f-string [f"FormSubmitter:{form_id}-{label}"]. *)
Definition submit_button_key (form_id label : string) : string :=
  "FormSubmitter:" +:+ form_id +:+ "-" +:+ label.

(** [ModalMixin._modal_form_submit_button] *)
Definition _modal_form_submit_button (self : DeltaGenerator)
  (label : string) (help : option string) (on_click : option Callable)
  (args : option Args) (kwargs : option Kwargs) (type : string)
  (disabled use_container_width : bool) (ctx : option ScriptRunContext)
  : M bool :=
  form_id ← form_current_form_id (dg self);
  let submit_button_key := submit_button_key form_id label in
  dg_button (dg self)
    {| label := label;
       key := submit_button_key;
       help := help;
       is_form_submitter := true;
       on_click := on_click;
       args := args;
       kwargs := kwargs;
       type := type;
       disabled := disabled;
       use_container_width := use_container_width;
       ctx := ctx |}.

(** The message of the exception raised for a bad [type]. *)
Definition type_error_message (type : string) : string :=
  "The type argument to st.button must be " +:+ dquote +:+ "primary"
    +:+ dquote +:+ " or " +:+ dquote +:+ "secondary" +:+ dquote +:+ ". "
    +:+ newline
    +:+ "The argument passed was " +:+ dquote +:+ type +:+ dquote +:+ ".".

(** [ModalMixin.experimental_modal_form_submit_button].  The caller supplies
    every argument; Python's defaults are [label="Submit"], [help=None],
    [on_click=None], [args=None], [kwargs=None], [type="secondary"],
    [disabled=False] and [use_container_width=False]. *)
Definition experimental_modal_form_submit_button (self : DeltaGenerator)
  (label : string) (help : option string) (on_click : option Callable)
  (args : option Args) (kwargs : option Kwargs) (type : string)
  (disabled use_container_width : bool) : M bool :=
  gather_metrics "experimental_modal_form_submit_button" (
    ctx ← scriptrunner_get_script_run_ctx;
    if negb (py_in type ["primary"; "secondary"]) then
      raise (StreamlitAPIException (type_error_message type))
    else
      _modal_form_submit_button self label help on_click args kwargs type
        disabled use_container_width ctx).

(** [ModalMixin.open_modal].  A context object is truthy, so [if ctx:] asks
    whether there is one; without one the method falls off its end and
    returns [None]. *)
Definition open_modal (self : DeltaGenerator) : M unit :=
  ctx ← scriptrunner_get_script_run_ctx;
  match ctx with
  | Some ctx =>
      open_modal_id ← form_current_form_id (dg self);
      msg ← app_session_create_update_open_modal_id_modal_event
              open_modal_id;
      ctx_enqueue ctx msg
  | None => mret tt
  end.

(** [ModalMixin.close_modal] *)
Definition close_modal (self : DeltaGenerator) : M unit :=
  ctx ← scriptrunner_get_script_run_ctx;
  match ctx with
  | Some ctx =>
      msg ← app_session_create_update_open_modal_id_modal_event
              EmptyString;
      ctx_enqueue ctx msg
  | None => mret tt
  end.

(** ** Reading a run's calls *)

(** The messages handed to [enqueue], each with the context it went to. *)
Definition enqueued (cs : list Call)
  : list (ScriptRunContext * ForwardMsg) :=
  omap (fun c => match c with
                 | call_enqueue ctx msg => Some (ctx, msg)
                 | _ => None
                 end) cs.

(** The block descriptors handed to [_block]. *)
Definition blocks (cs : list Call) : list Block :=
  omap (fun c => match c with
                 | call_block _ b _ => Some b
                 | _ => None
                 end) cs.

(** The button descriptions handed to [_button]. *)
Definition buttons (cs : list Call) : list ButtonArgs :=
  omap (fun c => match c with
                 | call_button _ a _ => Some a
                 | _ => None
                 end) cs.

(** Whether some call went to the collaborator [c]. *)
Definition forwards_to (cs : list Call) (c : Collaborator) : bool :=
  bool_decide (c ∈ collaborator_of <$> cs).

(** ** Scripts: calls of the public methods, one after the other *)

(** One statement of a script: a call of a public method whose value is not
    used. *)
Inductive Statement : Type :=
| st_modal_form (self : DeltaGenerator) (key : string)
    (clear_on_submit : bool)
| st_submit_button (self : DeltaGenerator) (label : string)
    (help : option string) (on_click : option Callable)
    (args : option Args) (kwargs : option Kwargs) (type : string)
    (disabled use_container_width : bool)
| st_open_modal (self : DeltaGenerator)
| st_close_modal (self : DeltaGenerator).

Definition exec (s : Statement) : M unit :=
  match s with
  | st_modal_form self key clear_on_submit =>
      experimental_modal_form self key clear_on_submit;; mret tt
  | st_submit_button self label help on_click args kwargs type disabled
      use_container_width =>
      experimental_modal_form_submit_button self label help on_click args
        kwargs type disabled use_container_width;;
      mret tt
  | st_open_modal self => open_modal self
  | st_close_modal self => close_modal self
  end.

(** The statements in order; an exception ends the script. *)
Fixpoint exec_script (ss : list Statement) : M unit :=
  match ss with
  | [] => mret tt
  | s :: ss => exec s;; exec_script ss
  end.

(** How many blocks, buttons and events a statement can account for. *)
Definition max_blocks (s : Statement) : nat :=
  match s with st_modal_form _ _ _ => 1 | _ => 0 end.

Definition max_buttons (s : Statement) : nat :=
  match s with st_submit_button _ _ _ _ _ _ _ _ _ => 1 | _ => 0 end.

Definition max_events (s : Statement) : nat :=
  match s with st_open_modal _ | st_close_modal _ => 1 | _ => 0 end.

Definition opens_or_closes (s : Statement) : bool :=
  match s with st_open_modal _ | st_close_modal _ => true | _ => false end.

End Model.

Arguments outcome {Rest Ext ScriptRunContext ForwardMsg Callable Args Kwargs A} r.
Arguments final {Rest Ext ScriptRunContext ForwardMsg Callable Args Kwargs A} r.
Arguments calls {Rest Ext ScriptRunContext ForwardMsg Callable Args Kwargs A} r.

(** ** A small runtime

    One concrete choice of collaborators, on which the mixin can be run:
    a runtime with at most one script-run context, a queue of messages,
    the keys of the registered buttons and a counter for new generator
    objects.  Without a context there is no tree to add to, and [_block]
    hands back the generator it was called on; [_button] refuses a form
    submitter on a generator that is in no form. *)

Module Sim.

(** The control message: which modal is open. *)
Record UpdateOpenModalId : Type := { open_modal_id : string }.

Record Runtime : Type := {
  script_run_ctx : option nat;
  form_ids_this_run : list string;
  forward_msg_queue : list UpdateOpenModalId;
  registered_keys : list string;
  next_dg : positive
}.

Definition Env : Type :=
  @Collaborators unit Runtime nat UpdateOpenModalId unit unit unit.

(** The form a generator is in: its own [_form_data], or none. *)
Definition sim_current_form_id (d : DeltaGenerator) (w : @World Runtime)
  : string :=
  match form_data w !! d with
  | Some fd => form.form_id fd
  | None => EmptyString
  end.

(** What the button subsystem says to a form submitter outside a form. *)
Definition outside_form_message : string :=
  "st.form_submit_button() must be used inside an st.form().".

Definition collaborators : Env := {|
  get_script_run_ctx w := script_run_ctx (ext w);
  build_form_id d k w :=
    (k, {| form_data := form_data w;
           ext := {| script_run_ctx := script_run_ctx (ext w);
                     form_ids_this_run := k :: form_ids_this_run (ext w);
                     forward_msg_queue := forward_msg_queue (ext w);
                     registered_keys := registered_keys (ext w);
                     next_dg := next_dg (ext w) |} |});
  current_form_id := sim_current_form_id;
  _block d b w :=
    match script_run_ctx (ext w) with
    | Some _ =>
        (next_dg (ext w),
         {| form_data := form_data w;
            ext := {| script_run_ctx := script_run_ctx (ext w);
                      form_ids_this_run := form_ids_this_run (ext w);
                      forward_msg_queue := forward_msg_queue (ext w);
                      registered_keys := registered_keys (ext w);
                      next_dg := Pos.succ (next_dg (ext w)) |} |})
    | None => (d, w)
    end;
  _button d a w :=
    if is_form_submitter a
       && bool_decide (sim_current_form_id d w = EmptyString)
    then (Raised (StreamlitAPIException outside_form_message), w)
    else
      (Returned false,
       {| form_data := form_data w;
          ext := {| script_run_ctx := script_run_ctx (ext w);
                    form_ids_this_run := form_ids_this_run (ext w);
                    forward_msg_queue := forward_msg_queue (ext w);
                    registered_keys := key a :: registered_keys (ext w);
                    next_dg := next_dg (ext w) |} |});
  create_update_open_modal_id_modal_event id := {| open_modal_id := id |};
  enqueue c m w :=
    {| form_data := form_data w;
       ext := {| script_run_ctx := script_run_ctx (ext w);
                 form_ids_this_run := form_ids_this_run (ext w);
                 forward_msg_queue := forward_msg_queue (ext w) ++ [m];
                 registered_keys := registered_keys (ext w);
                 next_dg := next_dg (ext w) |} |}
|}.

(** A script run by the server: context 7, generator 1 inside the form
    ["settings"], generator 2 the next one to be made. *)
Definition served : @World Runtime := {|
  form_data := {[ 1%positive := {| form.form_id := "settings" |} ]};
  ext := {| script_run_ctx := Some 7; form_ids_this_run := ["settings"];
            forward_msg_queue := []; registered_keys := [];
            next_dg := 2 |}
|}.

(** The same script run without a server: there is no context. *)
Definition bare : @World Runtime := {|
  form_data := {[ 1%positive := {| form.form_id := "settings" |} ]};
  ext := {| script_run_ctx := None; form_ids_this_run := ["settings"];
            forward_msg_queue := []; registered_keys := [];
            next_dg := 2 |}
|}.

End Sim.

(** * Properties *)

(** ** What each method does, as one equation *)

Section Runs.

Context {Rest : Type} `{!Inhabited Rest}.
Context {Ext ScriptRunContext ForwardMsg Callable Args Kwargs : Type}.

Variable env :
  @Collaborators Rest Ext ScriptRunContext ForwardMsg Callable Args Kwargs.

Lemma py_in_type_spec (type : string) :
  py_in type ["primary"; "secondary"] = true
  <-> type = "primary" \/ type = "secondary".
Proof.
  unfold py_in. rewrite bool_decide_eq_true.
  rewrite !elem_of_cons, elem_of_nil. tauto.
Qed.

Lemma open_modal_run (self : DeltaGenerator) (w : World) :
  open_modal env self w =
  match get_script_run_ctx env w with
  | Some c =>
      let id := current_form_id env (dg self) w in
      let msg := create_update_open_modal_id_modal_event env id in
      {| outcome := Returned tt;
         final := enqueue env c msg w;
         calls := [call_get_script_run_ctx (Some c);
                   call_current_form_id (dg self) id;
                   call_create_update_open_modal_id_modal_event id msg;
                   call_enqueue c msg] |}
  | None =>
      {| outcome := Returned tt; final := w;
         calls := [call_get_script_run_ctx None] |}
  end.
Proof.
  unfold open_modal, mbind, M_bind, scriptrunner_get_script_run_ctx, query.
  cbn. destruct (get_script_run_ctx env w); reflexivity.
Qed.

Lemma close_modal_run (self : DeltaGenerator) (w : World) :
  close_modal env self w =
  match get_script_run_ctx env w with
  | Some c =>
      let msg := create_update_open_modal_id_modal_event env EmptyString in
      {| outcome := Returned tt;
         final := enqueue env c msg w;
         calls := [call_get_script_run_ctx (Some c);
                   call_create_update_open_modal_id_modal_event
                     EmptyString msg;
                   call_enqueue c msg] |}
  | None =>
      {| outcome := Returned tt; final := w;
         calls := [call_get_script_run_ctx None] |}
  end.
Proof.
  unfold close_modal, mbind, M_bind, scriptrunner_get_script_run_ctx, query.
  cbn. destruct (get_script_run_ctx env w); reflexivity.
Qed.

Lemma experimental_modal_form_run (self : DeltaGenerator) (key : string)
  (clear_on_submit : bool) (w : World) :
  let id := build_form_id env (dg self) key w in
  let proto := build_modal_proto id.1 clear_on_submit in
  let blk := _block env (dg self) proto id.2 in
  experimental_modal_form env self key clear_on_submit w =
  {| outcome := Returned blk.1;
     final := {| form_data :=
                   <[blk.1 := {| form.form_id := id.1 |}]> (form_data blk.2);
                 ext := ext blk.2 |};
     calls := [call_build_form_id (dg self) key id.1;
               call_block (dg self) proto blk.1] |}.
Proof. reflexivity. Qed.

Lemma _modal_form_submit_button_run (self : DeltaGenerator)
  (label : string) (help : option string) (on_click : option Callable)
  (args : option Args) (kwargs : option Kwargs) (type : string)
  (disabled use_container_width : bool) (ctx : option ScriptRunContext)
  (w : World) :
  let id := current_form_id env (dg self) w in
  let a := {| label := label; key := submit_button_key id label;
              help := help; is_form_submitter := true;
              on_click := on_click; args := args; kwargs := kwargs;
              type := type; disabled := disabled;
              use_container_width := use_container_width; ctx := ctx |} in
  _modal_form_submit_button env self label help on_click args kwargs type
    disabled use_container_width ctx w =
  {| outcome := (_button env (dg self) a w).1;
     final := (_button env (dg self) a w).2;
     calls := [call_current_form_id (dg self) id;
               call_button (dg self) a (_button env (dg self) a w).1] |}.
Proof. reflexivity. Qed.

Lemma experimental_modal_form_submit_button_run (self : DeltaGenerator)
  (label : string) (help : option string) (on_click : option Callable)
  (args : option Args) (kwargs : option Kwargs) (type : string)
  (disabled use_container_width : bool) (w : World) :
  let ctx := get_script_run_ctx env w in
  let r := _modal_form_submit_button env self label help on_click args
             kwargs type disabled use_container_width ctx w in
  experimental_modal_form_submit_button env self label help on_click args
    kwargs type disabled use_container_width w =
  if py_in type ["primary"; "secondary"] then
    {| outcome := outcome r; final := final r;
       calls := call_get_script_run_ctx ctx :: calls r |}
  else
    {| outcome := Raised (StreamlitAPIException (type_error_message type));
       final := w;
       calls := [call_get_script_run_ctx ctx] |}.
Proof.
  unfold experimental_modal_form_submit_button, gather_metrics, mbind,
    M_bind, scriptrunner_get_script_run_ctx, query.
  cbn. destruct (py_in type ["primary"; "secondary"]); reflexivity.
Qed.

End Runs.

(** ** The claims *)

Section Claims.

Context {Rest : Type} `{!Inhabited Rest}.
Context {Ext ScriptRunContext ForwardMsg Callable Args Kwargs : Type}.

Variable env :
  @Collaborators Rest Ext ScriptRunContext ForwardMsg Callable Args Kwargs.

(** C1, as amended: whenever [get_script_run_ctx()] returns a context,
    [open_modal] enqueues on that context exactly one message, the one
    [create_update_open_modal_id_modal_event] builds for the current form id
    of the mixin's generator, and enqueues nothing else; it returns [None]
    and the world is the one [enqueue] leaves. *)
Theorem open_modal_enqueues_current_form_id
  (self : DeltaGenerator) (w : World) (c : ScriptRunContext) :
  get_script_run_ctx env w = Some c ->
  let id := current_form_id env (dg self) w in
  let msg := create_update_open_modal_id_modal_event env id in
  let r := open_modal env self w in
  enqueued (calls r) = [(c, msg)]
  /\ calls r = [call_get_script_run_ctx (Some c);
                call_current_form_id (dg self) id;
                call_create_update_open_modal_id_modal_event id msg;
                call_enqueue c msg]
  /\ outcome r = Returned tt
  /\ final r = enqueue env c msg w.
Proof.
  intros Hctx. cbv zeta. rewrite open_modal_run, Hctx. cbn.
  repeat split.
Qed.

(** C2: [build_modal_proto] returns a block whose [modal] member is present
    with [form_id] and [clear_on_submit] as given, every other member being
    as in a new [Block]; and the one block [experimental_modal_form] hands
    to [_block] is built from the very string [form.build_form_id] returned
    and the caller's [clear_on_submit]. *)
Theorem build_modal_proto_fields
  (form_id : string) (clear_on_submit : bool)
  (self : DeltaGenerator) (key : string) (w : World) :
  let b := build_modal_proto (Rest := Rest) form_id clear_on_submit in
  Block_pb2.modal b
    = Some {| Block_pb2.form_id := form_id;
              Block_pb2.clear_on_submit := clear_on_submit |}
  /\ Block_pb2.form_id (Block_pb2.get_modal b) = form_id
  /\ Block_pb2.clear_on_submit (Block_pb2.get_modal b) = clear_on_submit
  /\ Block_pb2.rest b = Block_pb2.rest Block_pb2.Block_new
  /\ blocks (calls (experimental_modal_form env self key clear_on_submit w))
     = [build_modal_proto (build_form_id env (dg self) key w).1
          clear_on_submit].
Proof.
  cbv zeta. rewrite experimental_modal_form_run. repeat split.
Qed.

(** C3, as amended: whenever [get_script_run_ctx()] returns a context,
    [close_modal] enqueues on it exactly one message, the one built for the
    empty [open_modal_id], and nothing else; and the whole run is the same
    whichever generator the mixin is bound to. *)
Theorem close_modal_enqueues_empty_id
  (self : DeltaGenerator) (w : World) (c : ScriptRunContext) :
  get_script_run_ctx env w = Some c ->
  let msg := create_update_open_modal_id_modal_event env EmptyString in
  let r := close_modal env self w in
  enqueued (calls r) = [(c, msg)]
  /\ calls r = [call_get_script_run_ctx (Some c);
                call_create_update_open_modal_id_modal_event
                  EmptyString msg;
                call_enqueue c msg]
  /\ outcome r = Returned tt
  /\ final r = enqueue env c msg w
  /\ forall self' : DeltaGenerator, close_modal env self' w = r.
Proof.
  intros Hctx. cbv zeta. rewrite close_modal_run, Hctx. cbn.
  repeat split. intros self'. rewrite close_modal_run, Hctx. reflexivity.
Qed.

(** C4: for [type] one of "primary" and "secondary",
    [experimental_modal_form_submit_button] makes one call of
    [self.dg._button], with [is_form_submitter=True] and the caller's
    [label], [help], [on_click], [args], [kwargs], [type], [disabled] and
    [use_container_width] as given; it ends as that call ends (what it
    returns is what that call returns), the world is the one that call
    leaves, and it hands no block to the tree-builder. *)
Theorem submit_button_delegates_to_button
  (self : DeltaGenerator) (label : string) (help : option string)
  (on_click : option Callable) (args : option Args)
  (kwargs : option Kwargs) (type : string)
  (disabled use_container_width : bool) (w : World) :
  type = "primary" \/ type = "secondary" ->
  let id := current_form_id env (dg self) w in
  let a := {| label := label; key := submit_button_key id label;
              help := help; is_form_submitter := true;
              on_click := on_click; args := args; kwargs := kwargs;
              type := type; disabled := disabled;
              use_container_width := use_container_width;
              ctx := get_script_run_ctx env w |} in
  let r := experimental_modal_form_submit_button env self label help
             on_click args kwargs type disabled use_container_width w in
  outcome r = (_button env (dg self) a w).1
  /\ final r = (_button env (dg self) a w).2
  /\ buttons (calls r) = [a]
  /\ blocks (calls r) = []
  /\ calls r = [call_get_script_run_ctx (get_script_run_ctx env w);
                call_current_form_id (dg self) id;
                call_button (dg self) a (_button env (dg self) a w).1].
Proof.
  intros Hty. cbv zeta. rewrite experimental_modal_form_submit_button_run.
  apply py_in_type_spec in Hty. cbv zeta. rewrite Hty.
  rewrite _modal_form_submit_button_run. repeat split.
Qed.

(** C5, as amended: each of the four public operations forwards to at
    least one of the three collaborators, and which ones is fixed by the
    operation: [experimental_modal_form] to the form helper and the
    tree-builder, not to the script-run context;
    [experimental_modal_form_submit_button] to the script-run context, and
    to the form helper and the tree-builder exactly when [type] is accepted;
    [open_modal] to the script-run context, to the form helper exactly when
    there is a context, and never to the tree-builder; [close_modal] to the
    script-run context alone. *)
Theorem collaborators_of_each_operation
  (self : DeltaGenerator) (key : string) (clear_on_submit : bool)
  (label : string) (help : option string) (on_click : option Callable)
  (args : option Args) (kwargs : option Kwargs) (type : string)
  (disabled use_container_width : bool) (w : World) :
  let form_ := calls (experimental_modal_form env self key clear_on_submit w) in
  let button := calls (experimental_modal_form_submit_button env self label
                         help on_click args kwargs type disabled
                         use_container_width w) in
  let open := calls (open_modal env self w) in
  let close := calls (close_modal env self w) in
  let has_ctx := bool_decide (is_Some (get_script_run_ctx env w)) in
  (forwards_to form_ form_helper = true
   /\ forwards_to form_ delta_generator = true
   /\ forwards_to form_ script_run_context = false)
  /\ (forwards_to button script_run_context = true
      /\ forwards_to button form_helper
         = py_in type ["primary"; "secondary"]
      /\ forwards_to button delta_generator
         = py_in type ["primary"; "secondary"])
  /\ (forwards_to open script_run_context = true
      /\ forwards_to open form_helper = has_ctx
      /\ forwards_to open delta_generator = false)
  /\ (forwards_to close script_run_context = true
      /\ forwards_to close form_helper = false
      /\ forwards_to close delta_generator = false).
Proof.
  cbv zeta.
  rewrite experimental_modal_form_run,
    experimental_modal_form_submit_button_run, open_modal_run,
    close_modal_run.
  cbv zeta. rewrite _modal_form_submit_button_run.
  destruct (py_in type ["primary"; "secondary"]);
    destruct (get_script_run_ctx env w); repeat split.
Qed.


(** C7, as amended: in every call of [experimental_modal_form],
    [form.build_form_id] is called once, and the string it returns is the
    [modal.form_id] of the block handed to [_block] and the [form_id] of
    the [FormData] attached to the generator that is returned.  The mixin
    keeps it nowhere else: the world it leaves is the one [_block] left,
    with that one attribute of the returned generator set.  So the mixin
    itself retains no copy unless [_block] returns the mixin's own
    generator: if the returned generator is another object, the mixin's
    [_form_data] is as [_block] left it; if it is the mixin's own, the
    mixin's [_form_data] now holds the new form id. *)
Theorem form_id_handed_off
  (self : DeltaGenerator) (key : string) (clear_on_submit : bool)
  (w : World) :
  let id := (build_form_id env (dg self) key w).1 in
  let w1 := (build_form_id env (dg self) key w).2 in
  let proto := build_modal_proto id clear_on_submit in
  let block_dg := (_block env (dg self) proto w1).1 in
  let w2 := (_block env (dg self) proto w1).2 in
  let r := experimental_modal_form env self key clear_on_submit w in
  outcome r = Returned block_dg
  /\ calls r = [call_build_form_id (dg self) key id;
                call_block (dg self) proto block_dg]
  /\ Block_pb2.form_id (Block_pb2.get_modal proto) = id
  /\ form_data (final r) !! block_dg = Some {| form.form_id := id |}
  /\ final r
     = {| form_data := <[block_dg := {| form.form_id := id |}]> (form_data w2);
          ext := ext w2 |}
  /\ (forall d : DeltaGenerator,
        d <> block_dg -> form_data (final r) !! d = form_data w2 !! d)
  /\ (block_dg <> dg self ->
      form_data (final r) !! dg self = form_data w2 !! dg self)
  /\ (block_dg = dg self ->
      form_data (final r) !! dg self = Some {| form.form_id := id |}).
Proof.
  cbv zeta. rewrite experimental_modal_form_run. cbn.
  repeat split.
  - apply lookup_insert_eq.
  - intros d Hd. apply lookup_insert_ne. congruence.
  - intros Hfresh. apply lookup_insert_ne, Hfresh.
  - intros Hsame. rewrite Hsame. apply lookup_insert_eq.
Qed.

(** C8, as amended: [experimental_modal_form_submit_button] raises at its
    own check of [type], that is a [StreamlitAPIException] with no button
    registered, if and only if [type] is neither "primary" nor "secondary";
    when it does, [_modal_form_submit_button] has not been entered: the one
    call made is [get_script_run_ctx()] and the world is unchanged.  With
    an accepted [type] the method ends as its call of [self.dg._button]
    ends, so it raises then exactly what that call raises. *)
Theorem submit_button_own_raise_iff_bad_type
  (self : DeltaGenerator) (label : string) (help : option string)
  (on_click : option Callable) (args : option Args)
  (kwargs : option Kwargs) (type : string)
  (disabled use_container_width : bool) (w : World) :
  let a := {| label := label;
              key := submit_button_key (current_form_id env (dg self) w) label;
              help := help; is_form_submitter := true;
              on_click := on_click; args := args; kwargs := kwargs;
              type := type; disabled := disabled;
              use_container_width := use_container_width;
              ctx := get_script_run_ctx env w |} in
  let r := experimental_modal_form_submit_button env self label help
             on_click args kwargs type disabled use_container_width w in
  (((exists msg, outcome r = Raised (StreamlitAPIException msg))
    /\ buttons (calls r) = [])
   <-> ~ (type = "primary" \/ type = "secondary"))
  /\ (~ (type = "primary" \/ type = "secondary") ->
      outcome r = Raised (StreamlitAPIException (type_error_message type))
      /\ calls r = [call_get_script_run_ctx (get_script_run_ctx env w)]
      /\ buttons (calls r) = []
      /\ final r = w)
  /\ (type = "primary" \/ type = "secondary" ->
      outcome r = (_button env (dg self) a w).1
      /\ buttons (calls r) = [a]
      /\ ((exists e, outcome r = Raised e)
          <-> exists e, (_button env (dg self) a w).1 = Raised e)).
Proof.
  cbv zeta. rewrite experimental_modal_form_submit_button_run. cbv zeta.
  rewrite _modal_form_submit_button_run.
  pose proof (py_in_type_spec type) as Hspec.
  destruct (py_in type ["primary"; "secondary"]); cbn.
  - assert (type = "primary" \/ type = "secondary") as Hok
      by (apply Hspec; reflexivity).
    split; [| split].
    + split; [intros [_ Hnone]; discriminate Hnone | tauto].
    + tauto.
    + intros _. repeat split; intros He; exact He.
  - assert (~ (type = "primary" \/ type = "secondary")) as Hbad
      by (intros Hok; apply Hspec in Hok; discriminate).
    split; [| split].
    + split; [tauto |].
      intros _. split; [eexists; reflexivity | reflexivity].
    + intros _. repeat split.
    + tauto.
Qed.

(** C9: when [get_script_run_ctx()] returns [None], [open_modal] and
    [close_modal] do nothing: each returns [None] without raising, enqueues
    no event, makes no call besides that one query, and leaves the world as
    it was. *)
Theorem open_close_without_context_are_noops
  (self : DeltaGenerator) (w : World) :
  get_script_run_ctx env w = None ->
  (outcome (open_modal env self w) = Returned tt
   /\ enqueued (calls (open_modal env self w)) = []
   /\ calls (open_modal env self w) = [call_get_script_run_ctx None]
   /\ final (open_modal env self w) = w)
  /\ (outcome (close_modal env self w) = Returned tt
      /\ enqueued (calls (close_modal env self w)) = []
      /\ calls (close_modal env self w) = [call_get_script_run_ctx None]
      /\ final (close_modal env self w) = w).
Proof.
  intros Hctx. rewrite open_modal_run, close_modal_run, Hctx. cbn.
  repeat split.
Qed.

(** C10: the key [_modal_form_submit_button] gives the button is
    "FormSubmitter:" followed by the current form id, "-" and the label;
    so two calls with the same current form id and the same label give the
    same key, whatever the generator, the world and the other arguments. *)
Theorem submit_button_key_is_deterministic
  (self : DeltaGenerator) (label : string) (help : option string)
  (on_click : option Callable) (args : option Args)
  (kwargs : option Kwargs) (type : string)
  (disabled use_container_width : bool) (ctx : option ScriptRunContext)
  (w : World) :
  let keys_of (r : Run bool) := key <$> buttons (calls r) in
  let r := _modal_form_submit_button env self label help on_click args
             kwargs type disabled use_container_width ctx w in
  keys_of r
  = ["FormSubmitter:" +:+ current_form_id env (dg self) w +:+ "-" +:+ label]
  /\ forall (self' : DeltaGenerator) (help' : option string)
       (on_click' : option Callable) (args' : option Args)
       (kwargs' : option Kwargs) (type' : string)
       (disabled' use_container_width' : bool)
       (ctx' : option ScriptRunContext) (w' : World),
       current_form_id env (dg self') w' = current_form_id env (dg self) w ->
       keys_of (_modal_form_submit_button env self' label help' on_click'
                  args' kwargs' type' disabled' use_container_width' ctx' w')
       = keys_of r.
Proof.
  cbv zeta. rewrite _modal_form_submit_button_run. split; [reflexivity |].
  intros self' help' on_click' args' kwargs' type' disabled'
    use_container_width' ctx' w' Hid.
  rewrite _modal_form_submit_button_run. cbn. rewrite Hid. reflexivity.
Qed.

End Claims.

(** ** The statements on the small runtime *)

(** Generator 1 opens its modal in a served script: the one message on
    context 7 names the form "settings". *)
Lemma open_modal_served :
  get_script_run_ctx Sim.collaborators Sim.served = Some 7
  /\ enqueued (calls (open_modal Sim.collaborators 1%positive Sim.served))
     = [(7, {| Sim.open_modal_id := "settings" |})].
Proof.
  split; [reflexivity |].
  exact (proj1 (open_modal_enqueues_current_form_id Sim.collaborators
                  1%positive Sim.served 7 eq_refl)).
Defined.

(** Without a script-run context [open_modal] enqueues no event at all, so
    not exactly one. *)
Lemma open_modal_bare_enqueues_nothing :
  get_script_run_ctx Sim.collaborators Sim.bare = None
  /\ enqueued (calls (open_modal Sim.collaborators 1%positive Sim.bare)) = []
  /\ length (enqueued (calls (open_modal Sim.collaborators 1%positive
                                Sim.bare))) <> 1.
Proof. repeat split. cbn. discriminate. Qed.

(** Generator 1 closes the modal in a served script: one message, with the
    empty id. *)
Lemma close_modal_served :
  get_script_run_ctx Sim.collaborators Sim.served = Some 7
  /\ enqueued (calls (close_modal Sim.collaborators 1%positive Sim.served))
     = [(7, {| Sim.open_modal_id := EmptyString |})].
Proof.
  split; [reflexivity |].
  exact (proj1 (close_modal_enqueues_empty_id Sim.collaborators 1%positive
                  Sim.served 7 eq_refl)).
Defined.

(** Without a script-run context [close_modal] enqueues no event at all. *)
Lemma close_modal_bare_enqueues_nothing :
  get_script_run_ctx Sim.collaborators Sim.bare = None
  /\ enqueued (calls (close_modal Sim.collaborators 1%positive Sim.bare)) = []
  /\ length (enqueued (calls (close_modal Sim.collaborators 1%positive
                                Sim.bare))) <> 1.
Proof. repeat split. cbn. discriminate. Qed.

(** A "primary" button labelled "OK" in the form "settings". *)
Lemma submit_button_served :
  ("primary" = "primary" \/ "primary" = "secondary")
  /\ outcome (experimental_modal_form_submit_button Sim.collaborators
                1%positive "OK" None None None None "primary" false false
                Sim.served)
     = Returned false
  /\ Sim.registered_keys
       (ext (final (experimental_modal_form_submit_button Sim.collaborators
                      1%positive "OK" None None None None "primary" false
                      false Sim.served)))
     = ["FormSubmitter:settings-OK"].
Proof.
  split; [left; reflexivity |].
  pose proof (submit_button_delegates_to_button Sim.collaborators 1%positive
                "OK" None None None None "primary" false false Sim.served
                (or_introl eq_refl)) as H.
  cbv zeta in H. destruct H as (Hout & Hfin & _).
  split; [exact Hout |]. rewrite Hfin. reflexivity.
Defined.

(** [close_modal] calls neither the form helper nor the tree-builder, and
    [open_modal] does not call the tree-builder: neither forwards to all
    three collaborators. *)
Lemma close_and_open_do_not_reach_all_three :
  forwards_to (calls (close_modal Sim.collaborators 1%positive Sim.served))
    form_helper = false
  /\ forwards_to (calls (close_modal Sim.collaborators 1%positive Sim.served))
       delta_generator = false
  /\ forwards_to (calls (open_modal Sim.collaborators 1%positive Sim.served))
       delta_generator = false
  /\ ~ (forall c : Collaborator,
          c ∈ [form_helper; delta_generator; script_run_context] ->
          forwards_to
            (calls (close_modal Sim.collaborators 1%positive Sim.served)) c
          = true).
Proof.
  split; [reflexivity |]. split; [reflexivity |]. split; [reflexivity |].
  intros Hall. specialize (Hall form_helper (list_elem_of_here _ _)).
  discriminate Hall.
Qed.


(** A modal form "prefs" made from generator 1: the new generator 2 carries
    the id, generator 1 keeps the form data it had. *)
Lemma form_id_handed_off_served :
  (_block Sim.collaborators 1%positive
     (build_modal_proto "prefs" true)
     (build_form_id Sim.collaborators 1%positive "prefs" Sim.served).2).1
  <> 1%positive
  /\ outcome (experimental_modal_form Sim.collaborators 1%positive "prefs"
                true Sim.served)
     = Returned 2%positive
  /\ form_data (final (experimental_modal_form Sim.collaborators 1%positive
                         "prefs" true Sim.served)) !! 2%positive
     = Some {| form.form_id := "prefs" |}
  /\ form_data (final (experimental_modal_form Sim.collaborators 1%positive
                         "prefs" true Sim.served)) !! 1%positive
     = Some {| form.form_id := "settings" |}.
Proof.
  assert ((_block Sim.collaborators 1%positive
             (build_modal_proto "prefs" true)
             (build_form_id Sim.collaborators 1%positive "prefs"
                Sim.served).2).1 <> 1%positive) as Hfresh
    by (cbn; discriminate).
  split; [exact Hfresh |].
  pose proof (form_id_handed_off Sim.collaborators 1%positive "prefs" true
                Sim.served) as H.
  cbv zeta in H. destruct H as (Hout & _ & _ & Hblk & _ & _ & Hself & _).
  split; [exact Hout |]. split; [exact Hblk |].
  etransitivity; [exact (Hself Hfresh) | reflexivity].
Defined.

(** Where [_block] hands back the generator it was called on, the
    generator returned is the mixin's own, and the mixin holds the new form
    id afterwards: it has retained a copy. *)
Lemma modal_form_on_own_generator_keeps_the_id :
  outcome (experimental_modal_form Sim.collaborators 1%positive "prefs"
             true Sim.bare) = Returned (dg 1%positive)
  /\ form_data (final (experimental_modal_form Sim.collaborators 1%positive
                         "prefs" true Sim.bare)) !! dg 1%positive
     = Some {| form.form_id :=
                 (build_form_id Sim.collaborators (dg 1%positive) "prefs"
                    Sim.bare).1 |}
  /\ form_data (final (experimental_modal_form Sim.collaborators 1%positive
                         "prefs" true Sim.bare)) !! dg 1%positive
     <> form_data Sim.bare !! dg 1%positive.
Proof. split; [reflexivity |]. split; [reflexivity |]. discriminate. Qed.

(** The error for [type="tertiary"]: raised at the check, nothing changed. *)
Lemma submit_button_bad_type_raises :
  ~ ("tertiary" = "primary" \/ "tertiary" = "secondary")
  /\ outcome (experimental_modal_form_submit_button Sim.collaborators
                1%positive "OK" None None None None "tertiary" false false
                Sim.served)
     = Raised (StreamlitAPIException (type_error_message "tertiary"))
  /\ final (experimental_modal_form_submit_button Sim.collaborators
              1%positive "OK" None None None None "tertiary" false false
              Sim.served)
     = Sim.served.
Proof.
  assert (~ ("tertiary" = "primary" \/ "tertiary" = "secondary")) as Hbad
    by (intros [Heq | Heq]; discriminate Heq).
  split; [exact Hbad |].
  pose proof (proj1 (proj2 (submit_button_own_raise_iff_bad_type
                              Sim.collaborators 1%positive "OK" None None
                              None None "tertiary" false false Sim.served)))
    as H.
  cbv zeta in H.
  destruct (H Hbad) as (Hout & _ & _ & Hfin).
  split; [exact Hout | exact Hfin].
Defined.

(** With the accepted [type="secondary"], on generator 3, which is in no
    form, the method raises [StreamlitAPIException] all the same: the
    exception is the one [_button] raises. *)
Lemma submit_button_accepted_type_raises :
  ("secondary" = "primary" \/ "secondary" = "secondary")
  /\ outcome (experimental_modal_form_submit_button Sim.collaborators
                3%positive "OK" None None None None "secondary" false false
                Sim.served)
     = Raised (StreamlitAPIException Sim.outside_form_message)
  /\ ~ ((exists msg,
           outcome (experimental_modal_form_submit_button Sim.collaborators
                      3%positive "OK" None None None None "secondary" false
                      false Sim.served)
           = Raised (StreamlitAPIException msg))
        <-> ~ ("secondary" = "primary" \/ "secondary" = "secondary")).
Proof.
  split; [right; reflexivity |]. split; [reflexivity |].
  intros [Hraises _]. apply Hraises.
  - eexists. reflexivity.
  - right. reflexivity.
Qed.

(** Both methods in a script without a context. *)
Lemma open_close_bare :
  get_script_run_ctx Sim.collaborators Sim.bare = None
  /\ final (open_modal Sim.collaborators 1%positive Sim.bare) = Sim.bare
  /\ final (close_modal Sim.collaborators 1%positive Sim.bare) = Sim.bare.
Proof.
  split; [reflexivity |].
  pose proof (open_close_without_context_are_noops Sim.collaborators
                1%positive Sim.bare eq_refl) as H.
  destruct H as ((_ & _ & _ & Hopen) & (_ & _ & _ & Hclose)).
  split; [exact Hopen | exact Hclose].
Defined.

(** The same label in the same form, once served and once not: one key. *)
Lemma submit_button_key_served_and_bare :
  current_form_id Sim.collaborators 1%positive Sim.bare
  = current_form_id Sim.collaborators 1%positive Sim.served
  /\ key <$> buttons (calls (_modal_form_submit_button Sim.collaborators
                               1%positive "OK" None None None None
                               "primary" true false None Sim.bare))
     = key <$> buttons (calls (_modal_form_submit_button Sim.collaborators
                                 1%positive "OK" (Some "Save") None None
                                 None "secondary" false true (Some 7)
                                 Sim.served)).
Proof.
  split; [reflexivity |].
  exact (proj2 (submit_button_key_is_deterministic Sim.collaborators
                  1%positive "OK" (Some "Save") None None None "secondary"
                  false true (Some 7) Sim.served)
           1%positive None None None None "primary" true false None
           Sim.bare eq_refl).
Defined.

(** * Further properties of the methods *)

(** ** Strings *)

Lemma string_app_length (a b : string) :
  String.length (a +:+ b) = String.length a + String.length b.
Proof. induction a as [|c a IH]; simpl; [reflexivity | congruence]. Qed.

Lemma string_app_inj_r (a b s : string) : a +:+ s = b +:+ s -> a = b.
Proof.
  revert b. induction a as [|c a IH]; intros [|c' b] Heq.
  - reflexivity.
  - apply (f_equal String.length) in Heq.
    rewrite !string_app_length in Heq. simpl in Heq. lia.
  - apply (f_equal String.length) in Heq.
    rewrite !string_app_length in Heq. simpl in Heq. lia.
  - simpl in Heq. injection Heq as -> Heq. f_equal. apply IH, Heq.
Qed.

Lemma submit_button_key_inj (f1 l1 f2 l2 : string) :
  hyphen_free f1 = true -> hyphen_free f2 = true ->
  submit_button_key f1 l1 = submit_button_key f2 l2 ->
  f1 = f2 /\ l1 = l2.
Proof.
  unfold submit_button_key. intros H1 H2 Heq.
  apply (inj (String.app "FormSubmitter:")) in Heq.
  revert f2 H2 Heq.
  induction f1 as [|c1 f1 IH]; intros [|c2 f2] H2 Heq; simpl in Heq.
  - injection Heq as Heq. split; [reflexivity | exact Heq].
  - injection Heq as Hc _. subst c2. simpl in H2. discriminate H2.
  - injection Heq as Hc _. subst c1. simpl in H1. discriminate H1.
  - injection Heq as Hc Heq. subst c2. simpl in H1, H2.
    apply andb_prop in H1 as [_ H1]. apply andb_prop in H2 as [_ H2].
    destruct (IH H1 f2 H2 Heq) as [-> ->]. split; reflexivity.
Qed.

Lemma type_error_message_inj (t1 t2 : string) :
  type_error_message t1 = type_error_message t2 -> t1 = t2.
Proof.
  unfold type_error_message. intros Heq.
  repeat (apply (inj (String.app _)) in Heq).
  apply string_app_inj_r in Heq. exact Heq.
Qed.

Section Extras.

Context {Rest : Type} `{!Inhabited Rest}.
Context {Ext ScriptRunContext ForwardMsg Callable Args Kwargs : Type}.

Variable env :
  @Collaborators Rest Ext ScriptRunContext ForwardMsg Callable Args Kwargs.

(** X1: on a generator that is in no form (its current form id is the empty
    string) [open_modal] does what [close_modal] does: the same outcome,
    the same message on the same context, the same world afterwards. *)
Theorem open_modal_outside_form_is_close_modal
  (self self' : DeltaGenerator) (w : World) :
  current_form_id env (dg self) w = EmptyString ->
  outcome (open_modal env self w) = outcome (close_modal env self' w)
  /\ enqueued (calls (open_modal env self w))
     = enqueued (calls (close_modal env self' w))
  /\ final (open_modal env self w) = final (close_modal env self' w).
Proof.
  intros Hid. rewrite open_modal_run, close_modal_run.
  destruct (get_script_run_ctx env w); cbn; rewrite ?Hid; repeat split.
Qed.

(** X2: making a modal form and opening it.  Let [form.current_form_id]
    answer with a generator's own [_form_data] when it has one, and let
    there be a script-run context once the form is made.  Then
    [experimental_modal_form(key).open_modal()] enqueues exactly one
    message, and its [open_modal_id] is the string [form.build_form_id]
    returned, the same one that is the [modal.form_id] of the one block
    handed to [_block]. *)
Theorem modal_form_then_open_modal
  (self : DeltaGenerator) (key : string) (clear_on_submit : bool)
  (w : World) (c : ScriptRunContext) :
  (forall (d : DeltaGenerator) (w' : World) (fd : form.FormData),
     form_data w' !! d = Some fd ->
     current_form_id env d w' = form.form_id fd) ->
  get_script_run_ctx env
    (final (experimental_modal_form env self key clear_on_submit w))
  = Some c ->
  let id := (build_form_id env (dg self) key w).1 in
  let r := (experimental_modal_form env self key clear_on_submit
              ≫= open_modal env) w in
  outcome r = Returned tt
  /\ enqueued (calls r)
     = [(c, create_update_open_modal_id_modal_event env id)]
  /\ blocks (calls r) = [build_modal_proto id clear_on_submit]
  /\ Block_pb2.form_id
       (Block_pb2.get_modal (build_modal_proto (Rest := Rest) id
                               clear_on_submit)) = id.
Proof.
  intros Hform Hctx. cbv zeta.
  unfold mbind, M_bind. rewrite experimental_modal_form_run in *.
  cbn [outcome final calls] in *. rewrite open_modal_run, Hctx.
  rewrite (Hform _ _ {| form.form_id := (build_form_id env (dg self) key w).1 |})
    by apply lookup_insert_eq.
  cbn. repeat split.
Qed.


(** X4: the key identifies form and label as long as form ids carry no
    hyphen: two calls of [_modal_form_submit_button] whose current form ids
    are hyphen-free hand [_button] the same key only if the form ids and the
    labels are the same.  With hyphens it does not: form "a-b" with label
    "c" and form "a" with label "b-c" share one key. *)
Theorem submit_button_key_identifies_form_and_label
  (self1 self2 : DeltaGenerator) (label1 label2 : string)
  (help1 help2 : option string) (on_click1 on_click2 : option Callable)
  (args1 args2 : option Args) (kwargs1 kwargs2 : option Kwargs)
  (type1 type2 : string) (disabled1 disabled2 : bool)
  (use_container_width1 use_container_width2 : bool)
  (ctx1 ctx2 : option ScriptRunContext) (w1 w2 : World) :
  let r1 := _modal_form_submit_button env self1 label1 help1 on_click1 args1
              kwargs1 type1 disabled1 use_container_width1 ctx1 w1 in
  let r2 := _modal_form_submit_button env self2 label2 help2 on_click2 args2
              kwargs2 type2 disabled2 use_container_width2 ctx2 w2 in
  (hyphen_free (current_form_id env (dg self1) w1) = true ->
   hyphen_free (current_form_id env (dg self2) w2) = true ->
   key <$> buttons (calls r1) = key <$> buttons (calls r2) ->
   current_form_id env (dg self1) w1 = current_form_id env (dg self2) w2
   /\ label1 = label2)
  /\ submit_button_key "a-b" "c" = submit_button_key "a" "b-c".
Proof.
  cbv zeta. split; [| reflexivity].
  rewrite !_modal_form_submit_button_run. cbn -[submit_button_key].
  intros H1 H2 Hkeys. pose proof (f_equal head Hkeys) as Hk.
  apply (inj Some) in Hk.
  exact (submit_button_key_inj _ _ _ _ H1 H2 Hk).
Qed.

(** X5: the exception of the check tells which [type] was refused: two
    calls of [experimental_modal_form_submit_button], each given a string
    [type] that is neither "primary" nor "secondary", end alike only if
    they were given the same [type], whatever their other arguments. *)
Theorem submit_button_error_names_the_type
  (self1 self2 : DeltaGenerator) (label1 label2 : string)
  (help1 help2 : option string) (on_click1 on_click2 : option Callable)
  (args1 args2 : option Args) (kwargs1 kwargs2 : option Kwargs)
  (type1 type2 : string) (disabled1 disabled2 : bool)
  (use_container_width1 use_container_width2 : bool) (w1 w2 : World) :
  ~ (type1 = "primary" \/ type1 = "secondary") ->
  ~ (type2 = "primary" \/ type2 = "secondary") ->
  outcome (experimental_modal_form_submit_button env self1 label1 help1
             on_click1 args1 kwargs1 type1 disabled1 use_container_width1
             w1)
  = outcome (experimental_modal_form_submit_button env self2 label2 help2
               on_click2 args2 kwargs2 type2 disabled2 use_container_width2
               w2) ->
  type1 = type2.
Proof.
  intros Hbad1 Hbad2.
  rewrite !experimental_modal_form_submit_button_run. cbv zeta.
  destruct (py_in type1 _) eqn:Hin1;
    [apply py_in_type_spec in Hin1; contradiction |].
  destruct (py_in type2 _) eqn:Hin2;
    [apply py_in_type_spec in Hin2; contradiction |].
  cbn. intros Heq. apply type_error_message_inj. congruence.
Qed.

(** X6: the check of [type] is in the public method only.  For a [type]
    that is neither "primary" nor "secondary",
    [experimental_modal_form_submit_button] never reaches [_button], while
    [_modal_form_submit_button], called with the same arguments, makes its
    one call of [_button] with that very [type] and ends as that call
    ends. *)
Theorem only_the_public_method_checks_type
  (self : DeltaGenerator) (label : string) (help : option string)
  (on_click : option Callable) (args : option Args)
  (kwargs : option Kwargs) (ty : string)
  (disabled use_container_width : bool) (ctx : option ScriptRunContext)
  (w : World) :
  ~ (ty = "primary" \/ ty = "secondary") ->
  let a := {| label := label;
              key := submit_button_key (current_form_id env (dg self) w) label;
              help := help; is_form_submitter := true;
              on_click := on_click; args := args; kwargs := kwargs;
              type := ty; disabled := disabled;
              use_container_width := use_container_width; ctx := ctx |} in
  let pub := experimental_modal_form_submit_button env self label help
               on_click args kwargs ty disabled use_container_width w in
  let priv := _modal_form_submit_button env self label help on_click args
                kwargs ty disabled use_container_width ctx w in
  buttons (calls pub) = []
  /\ buttons (calls priv) = [a]
  /\ type <$> buttons (calls priv) = [ty]
  /\ outcome priv = (_button env (dg self) a w).1.
Proof.
  intros Hbad. cbv zeta.
  rewrite experimental_modal_form_submit_button_run. cbv zeta.
  rewrite !_modal_form_submit_button_run.
  destruct (py_in ty ["primary"; "secondary"]) eqn:Hin.
  - apply py_in_type_spec in Hin. contradiction.
  - cbn. repeat split.
Qed.

(** ** Scripts *)

Lemma discard_run {A : Type}
  (m : @M Rest Ext ScriptRunContext ForwardMsg Callable Args Kwargs A)
  (w : World) :
  (m;; mret tt) w
  = {| outcome := match outcome (m w) with
                  | Returned _ => Returned tt
                  | Raised e => Raised e
                  end;
       final := final (m w);
       calls := calls (m w) |}.
Proof.
  unfold mbind, M_bind, mret, M_ret.
  destruct (outcome (m w)); cbn; rewrite ?app_nil_r; reflexivity.
Qed.

Lemma exec_script_cons (s : Statement) (ss : list Statement) (w : World) :
  exec_script env (s :: ss) w
  = match outcome (exec env s w) with
    | Returned _ =>
        let r' := exec_script env ss (final (exec env s w)) in
        {| outcome := outcome r'; final := final r';
           calls := calls (exec env s w) ++ calls r' |}
    | Raised e =>
        {| outcome := Raised e; final := final (exec env s w);
           calls := calls (exec env s w) |}
    end.
Proof. reflexivity. Qed.

Lemma exec_script_app (ss ss' : list Statement) (w : World) :
  exec_script env (ss ++ ss') w
  = match outcome (exec_script env ss w) with
    | Returned _ =>
        let r' := exec_script env ss' (final (exec_script env ss w)) in
        {| outcome := outcome r'; final := final r';
           calls := calls (exec_script env ss w) ++ calls r' |}
    | Raised e =>
        {| outcome := Raised e; final := final (exec_script env ss w);
           calls := calls (exec_script env ss w) |}
    end.
Proof.
  revert w. induction ss as [|s ss IH]; intros w.
  - cbn. destruct (exec_script env ss' w); reflexivity.
  - rewrite <- app_comm_cons, !exec_script_cons.
    destruct (outcome (exec env s w)); [| reflexivity].
    cbv zeta. rewrite IH. cbn [outcome final calls].
    destruct (outcome (exec_script env ss (final (exec env s w))));
      cbn [outcome final calls]; rewrite ?app_assoc; reflexivity.
Qed.

Lemma exec_bounds (s : Statement) (w : World) :
  length (blocks (calls (exec env s w))) <= max_blocks s
  /\ length (buttons (calls (exec env s w))) <= max_buttons s
  /\ length (enqueued (calls (exec env s w))) <= max_events s.
Proof.
  destruct s; cbn [exec max_blocks max_buttons max_events];
    rewrite ?discard_run; cbn [calls].
  - rewrite experimental_modal_form_run. cbn. lia.
  - rewrite experimental_modal_form_submit_button_run. cbv zeta.
    rewrite _modal_form_submit_button_run.
    destruct (py_in _ _); cbn; lia.
  - rewrite open_modal_run. destruct (get_script_run_ctx env w); cbn; lia.
  - rewrite close_modal_run. destruct (get_script_run_ctx env w); cbn; lia.
Qed.

(** X7: whatever a script of calls does, and wherever it stops, it hands
    [_block] at most one block per [experimental_modal_form], registers at
    most one button per [experimental_modal_form_submit_button], and
    enqueues at most one event per [open_modal] or [close_modal]. *)
Theorem script_outputs_are_bounded (ss : list Statement) (w : World) :
  let r := exec_script env ss w in
  length (blocks (calls r)) <= sum_list (max_blocks <$> ss)
  /\ length (buttons (calls r)) <= sum_list (max_buttons <$> ss)
  /\ length (enqueued (calls r)) <= sum_list (max_events <$> ss).
Proof.
  cbv zeta. revert w. induction ss as [|s ss IH]; intros w.
  - cbn. lia.
  - rewrite exec_script_cons, !fmap_cons. cbn [sum_list_with id].
    destruct (exec_bounds s w) as (Hb & Hu & He).
    destruct (outcome (exec env s w)); cbn [calls].
    + destruct (IH (final (exec env s w))) as (Hb' & Hu' & He').
      unfold blocks, buttons, enqueued in *.
      rewrite !omap_app, !length_app. lia.
    + lia.
Qed.

(** A script of [open_modal] and [close_modal] calls under a context that
    stays: every call enqueues on that context. *)
Lemma served_script_run (ss : list Statement) (w : World)
  (c : ScriptRunContext) :
  (forall (w' : World) (c' : ScriptRunContext) (m : ForwardMsg),
     get_script_run_ctx env w' = Some c' ->
     get_script_run_ctx env (enqueue env c' m w') = Some c') ->
  forallb opens_or_closes ss = true ->
  get_script_run_ctx env w = Some c ->
  outcome (exec_script env ss w) = Returned tt
  /\ (enqueued (calls (exec_script env ss w))).*1 = replicate (length ss) c
  /\ get_script_run_ctx env (final (exec_script env ss w)) = Some c.
Proof.
  intros Hstay. revert w. induction ss as [|s ss IH]; intros w Hss Hctx.
  - cbn. repeat split. exact Hctx.
  - cbn [forallb] in Hss. apply andb_prop in Hss as [Hs Hss].
    rewrite exec_script_cons.
    destruct s; try discriminate Hs; cbn [exec].
    + rewrite open_modal_run, Hctx. cbv zeta. cbn [outcome final calls].
      match goal with
      | |- context [exec_script env ss ?w'] =>
          destruct (IH w' Hss) as (Hout & Hev & Hfin);
            [apply Hstay, Hctx |]
      end.
      split; [exact Hout |]. split; [| exact Hfin].
      unfold enqueued in *. rewrite omap_app, fmap_app, Hev. reflexivity.
    + rewrite close_modal_run, Hctx. cbv zeta. cbn [outcome final calls].
      match goal with
      | |- context [exec_script env ss ?w'] =>
          destruct (IH w' Hss) as (Hout & Hev & Hfin);
            [apply Hstay, Hctx |]
      end.
      split; [exact Hout |]. split; [| exact Hfin].
      unfold enqueued in *. rewrite omap_app, fmap_app, Hev. reflexivity.
Qed.

(** X8: in a script made of [open_modal] and [close_modal] calls, run under
    a context that [enqueue] leaves in place, every call enqueues exactly
    one message, all on that context, none is merged or dropped, and the
    script returns normally. *)
Theorem served_script_enqueues_once_per_call
  (ss : list Statement) (w : World) (c : ScriptRunContext) :
  (forall (w' : World) (c' : ScriptRunContext) (m : ForwardMsg),
     get_script_run_ctx env w' = Some c' ->
     get_script_run_ctx env (enqueue env c' m w') = Some c') ->
  forallb opens_or_closes ss = true ->
  get_script_run_ctx env w = Some c ->
  let r := exec_script env ss w in
  outcome r = Returned tt
  /\ length (enqueued (calls r)) = length ss
  /\ (enqueued (calls r)).*1 = replicate (length ss) c.
Proof.
  intros Hstay Hss Hctx. cbv zeta.
  destruct (served_script_run ss w c Hstay Hss Hctx) as (Hout & Hev & _).
  split; [exact Hout |]. split; [| exact Hev].
  rewrite <- (length_fmap fst), Hev. apply length_replicate.
Qed.

(** X9: under the same conditions, when the last call of the script is
    [close_modal], the last message enqueued is the one with the empty
    [open_modal_id], whatever was opened before. *)
Theorem served_script_ending_with_close_modal
  (ss : list Statement) (self : DeltaGenerator) (w : World)
  (c : ScriptRunContext) :
  (forall (w' : World) (c' : ScriptRunContext) (m : ForwardMsg),
     get_script_run_ctx env w' = Some c' ->
     get_script_run_ctx env (enqueue env c' m w') = Some c') ->
  forallb opens_or_closes ss = true ->
  get_script_run_ctx env w = Some c ->
  last (enqueued (calls (exec_script env (ss ++ [st_close_modal self]) w)))
  = Some (c, create_update_open_modal_id_modal_event env EmptyString).
Proof.
  intros Hstay Hss Hctx.
  destruct (served_script_run ss w c Hstay Hss Hctx) as (Hout & _ & Hfin).
  rewrite exec_script_app, Hout. cbv zeta. cbn [calls].
  rewrite exec_script_cons. cbn [exec]. rewrite close_modal_run, Hfin.
  cbn [outcome final calls exec_script mret M_ret].
  unfold enqueued. rewrite omap_app. cbn. apply last_snoc.
Qed.

(** X10: a script made of [open_modal] and [close_modal] calls, run where
    there is no script-run context, does nothing at all: it returns
    normally, enqueues nothing, and leaves the world as it found it; each
    call only looked the context up. *)
Theorem bare_script_is_a_noop (ss : list Statement) (w : World) :
  forallb opens_or_closes ss = true ->
  get_script_run_ctx env w = None ->
  let r := exec_script env ss w in
  outcome r = Returned tt
  /\ final r = w
  /\ enqueued (calls r) = []
  /\ calls r = replicate (length ss) (call_get_script_run_ctx None).
Proof.
  cbv zeta. induction ss as [|s ss IH]; intros Hss Hctx.
  - cbn. repeat split.
  - cbn [forallb] in Hss. apply andb_prop in Hss as [Hs Hss].
    destruct (IH Hss Hctx) as (Hout & Hfin & Hev & Hcalls).
    rewrite exec_script_cons.
    destruct s; try discriminate Hs; cbn [exec];
      rewrite ?open_modal_run, ?close_modal_run, Hctx;
      cbn [outcome final calls]; rewrite Hout, Hfin, Hcalls;
      repeat split; unfold enqueued in *; rewrite Hcalls in Hev;
      exact Hev.
Qed.

(** X11: a script stops at the first submit button whose [type] is refused.
    If the statements before it return normally, the script raises the
    [StreamlitAPIException] for that [type]; the world is as those
    statements left it, and the one further call is the context lookup of
    the refused button: no statement after it runs. *)
Theorem script_stops_at_refused_type
  (pre post : list Statement) (self : DeltaGenerator) (label : string)
  (help : option string) (on_click : option Callable)
  (args : option Args) (kwargs : option Kwargs) (ty : string)
  (disabled use_container_width : bool) (w : World) :
  ~ (ty = "primary" \/ ty = "secondary") ->
  outcome (exec_script env pre w) = Returned tt ->
  let w' := final (exec_script env pre w) in
  let r := exec_script env
             (pre ++ st_submit_button self label help on_click args kwargs
                       ty disabled use_container_width :: post) w in
  outcome r = Raised (StreamlitAPIException (type_error_message ty))
  /\ final r = w'
  /\ calls r
     = (calls (exec_script env pre w)
          ++ [call_get_script_run_ctx (get_script_run_ctx env w')])%list.
Proof.
  intros Hbad Hpre. cbv zeta.
  assert (py_in ty ["primary"; "secondary"] = false) as Hin.
  { destruct (py_in ty _) eqn:Hin; [| reflexivity].
    apply py_in_type_spec in Hin. contradiction. }
  rewrite exec_script_app, Hpre. cbv zeta.
  rewrite exec_script_cons. cbn [exec]. rewrite discard_run.
  rewrite experimental_modal_form_submit_button_run. cbv zeta.
  rewrite Hin. cbn. repeat split.
Qed.

End Extras.

(** ** The further properties on the small runtime *)

Lemma sim_current_form_id_reads_form_data
  (d : DeltaGenerator) (w : @World Sim.Runtime) (fd : form.FormData) :
  form_data w !! d = Some fd ->
  current_form_id Sim.collaborators d w = form.form_id fd.
Proof.
  intros Hfd. cbn. unfold Sim.sim_current_form_id. rewrite Hfd. reflexivity.
Qed.

Lemma sim_enqueue_keeps_context
  (w : @World Sim.Runtime) (c : nat) (m : Sim.UpdateOpenModalId) :
  get_script_run_ctx Sim.collaborators w = Some c ->
  get_script_run_ctx Sim.collaborators (enqueue Sim.collaborators c m w)
  = Some c.
Proof. intros Hctx. exact Hctx. Qed.

(** Generator 3 is in no form: its [open_modal] sends the closing message. *)
Lemma open_modal_outside_form_served :
  current_form_id Sim.collaborators 3%positive Sim.served = EmptyString
  /\ enqueued (calls (open_modal Sim.collaborators 3%positive Sim.served))
     = [(7, {| Sim.open_modal_id := EmptyString |})].
Proof.
  split; [reflexivity |].
  etransitivity;
    [exact (proj1 (proj2 (open_modal_outside_form_is_close_modal
                            Sim.collaborators 3%positive 1%positive
                            Sim.served eq_refl)))
    | reflexivity].
Defined.

(** The form "prefs" is made from generator 1 and opened at once. *)
Lemma modal_form_then_open_modal_served :
  get_script_run_ctx Sim.collaborators
    (final (experimental_modal_form Sim.collaborators 1%positive "prefs"
              true Sim.served)) = Some 7
  /\ enqueued
       (calls ((experimental_modal_form Sim.collaborators 1%positive
                  "prefs" true ≫= open_modal Sim.collaborators)
                 Sim.served))
     = [(7, {| Sim.open_modal_id := "prefs" |})].
Proof.
  split; [reflexivity |].
  exact (proj1 (proj2 (modal_form_then_open_modal Sim.collaborators
                         1%positive "prefs" true Sim.served 7
                         sim_current_form_id_reads_form_data eq_refl))).
Defined.


(** The button "OK" of the form "settings", served and not. *)
Lemma submit_button_key_identifies_settings :
  hyphen_free (current_form_id Sim.collaborators 1%positive Sim.served)
  = true
  /\ current_form_id Sim.collaborators 1%positive Sim.served
     = current_form_id Sim.collaborators 1%positive Sim.bare.
Proof.
  split; [reflexivity |].
  exact (proj1 (proj1 (submit_button_key_identifies_form_and_label
                         Sim.collaborators 1%positive 1%positive "OK" "OK"
                         None None None None None None None None
                         "primary" "secondary" false false false false
                         (Some 7) None Sim.served Sim.bare)
                  eq_refl eq_refl eq_refl)).
Defined.

(** Two refused buttons that end alike. *)
Lemma submit_button_error_names_tertiary :
  ~ ("tertiary" = "primary" \/ "tertiary" = "secondary")
  /\ outcome (experimental_modal_form_submit_button Sim.collaborators
                1%positive "OK" None None None None "tertiary" false false
                Sim.served)
     = outcome (experimental_modal_form_submit_button Sim.collaborators
                  3%positive "Save" None None None None "tertiary" true
                  true Sim.bare)
  /\ "tertiary" = "tertiary".
Proof.
  assert (~ ("tertiary" = "primary" \/ "tertiary" = "secondary")) as Hbad
    by (intros [Heq | Heq]; discriminate Heq).
  split; [exact Hbad |]. split; [reflexivity |].
  exact (submit_button_error_names_the_type Sim.collaborators 1%positive
           3%positive "OK" "Save" None None None None None None None None
           "tertiary" "tertiary" false true false true Sim.served Sim.bare
           Hbad Hbad eq_refl).
Defined.

(** [type="tertiary"] through the public and through the private method. *)
Lemma only_the_public_method_checks_tertiary :
  ~ ("tertiary" = "primary" \/ "tertiary" = "secondary")
  /\ buttons (calls (experimental_modal_form_submit_button
                       Sim.collaborators 1%positive "OK" None None None
                       None "tertiary" false false Sim.served)) = []
  /\ type <$> buttons (calls (_modal_form_submit_button Sim.collaborators
                                1%positive "OK" None None None None
                                "tertiary" false false (Some 7)
                                Sim.served))
     = ["tertiary"].
Proof.
  assert (~ ("tertiary" = "primary" \/ "tertiary" = "secondary")) as Hbad
    by (intros [Heq | Heq]; discriminate Heq).
  split; [exact Hbad |].
  pose proof (only_the_public_method_checks_type Sim.collaborators
                1%positive "OK" None None None None "tertiary" false false
                (Some 7) Sim.served Hbad) as H.
  cbv zeta in H. destruct H as (Hpub & _ & Hpriv & _).
  split; [exact Hpub | exact Hpriv].
Defined.

(** Open, close, open again: three messages on context 7. *)
Lemma served_script_three_calls :
  forallb opens_or_closes
    [st_open_modal (Callable := unit) (Args := unit) (Kwargs := unit)
       1%positive;
     st_close_modal 3%positive; st_open_modal 1%positive] = true
  /\ get_script_run_ctx Sim.collaborators Sim.served = Some 7
  /\ (enqueued
        (calls (exec_script Sim.collaborators
                  [st_open_modal 1%positive; st_close_modal 3%positive;
                   st_open_modal 1%positive] Sim.served))).*1
     = [7; 7; 7].
Proof.
  split; [reflexivity |]. split; [reflexivity |].
  exact (proj2 (proj2 (served_script_enqueues_once_per_call
                         Sim.collaborators
                         [st_open_modal 1%positive;
                          st_close_modal 3%positive;
                          st_open_modal 1%positive]
                         Sim.served 7 sim_enqueue_keeps_context eq_refl
                         eq_refl))).
Defined.

(** Open twice, then close: the last message closes. *)
Lemma served_script_open_open_close :
  get_script_run_ctx Sim.collaborators Sim.served = Some 7
  /\ last (enqueued
             (calls (exec_script Sim.collaborators
                       ([st_open_modal (Callable := unit) (Args := unit)
                           (Kwargs := unit) 1%positive;
                         st_open_modal 1%positive]
                          ++ [st_close_modal 1%positive])%list
                       Sim.served)))
     = Some (7, {| Sim.open_modal_id := EmptyString |}).
Proof.
  split; [reflexivity |].
  exact (served_script_ending_with_close_modal Sim.collaborators
           [st_open_modal 1%positive; st_open_modal 1%positive] 1%positive
           Sim.served 7 sim_enqueue_keeps_context eq_refl eq_refl).
Defined.

(** The same calls without a server. *)
Lemma bare_script_three_calls :
  get_script_run_ctx Sim.collaborators Sim.bare = None
  /\ final (exec_script Sim.collaborators
              [st_open_modal (Callable := unit) (Args := unit)
                 (Kwargs := unit) 1%positive;
               st_close_modal 3%positive; st_open_modal 1%positive]
              Sim.bare)
     = Sim.bare.
Proof.
  split; [reflexivity |].
  exact (proj1 (proj2 (bare_script_is_a_noop Sim.collaborators
                         [st_open_modal 1%positive;
                          st_close_modal 3%positive;
                          st_open_modal 1%positive]
                         Sim.bare eq_refl eq_refl))).
Defined.

(** An open, a refused button, a close that never runs. *)
Lemma script_stops_at_tertiary :
  ~ ("tertiary" = "primary" \/ "tertiary" = "secondary")
  /\ outcome (exec_script Sim.collaborators
                ([st_open_modal 1%positive]
                   ++ st_submit_button 1%positive "OK" None None None None
                        "tertiary" false false
                   :: [st_close_modal 1%positive])%list
                Sim.served)
     = Raised (StreamlitAPIException (type_error_message "tertiary"))
  /\ Sim.forward_msg_queue
       (ext (final (exec_script Sim.collaborators
                      ([st_open_modal 1%positive]
                         ++ st_submit_button 1%positive "OK" None None None
                              None "tertiary" false false
                         :: [st_close_modal 1%positive])%list
                      Sim.served)))
     = [{| Sim.open_modal_id := "settings" |}].
Proof.
  assert (~ ("tertiary" = "primary" \/ "tertiary" = "secondary")) as Hbad
    by (intros [Heq | Heq]; discriminate Heq).
  split; [exact Hbad |].
  pose proof (script_stops_at_refused_type Sim.collaborators
                [st_open_modal 1%positive] [st_close_modal 1%positive]
                1%positive "OK" None None None None "tertiary" false false
                Sim.served Hbad eq_refl) as H.
  cbv zeta in H. destruct H as (Hout & Hfin & _).
  split; [exact Hout |]. rewrite Hfin. reflexivity.
Defined.
